(** * udaplay: the long-term memory store ([lib/long_memory.py])

    A shallow embedding of [LongTermMemory] and of the two dataclasses that
    accompany it, followed by the properties of the store that its
    specification states.

    Python values are modelled as follows.
    - A metadata mapping (a [dict] with string keys) is a [gmap string value].
    - [value] holds the scalars the store puts into or reads from metadata:
      [None], an [int], a [str].
    - A call that can raise returns an [outcome]: [Returned v] or
      [Raised e].
    - The type of the distance scores is a parameter: the store only passes
      them through. *)

From Stdlib Require Import ZArith.
From stdpp Require Import base option list strings gmap fin_maps.

Local Open Scope Z_scope.

(** ** Python values and exceptions *)

Inductive value : Type :=
  | VNone
  | VInt (z : Z)
  | VStr (s : string).

#[global] Instance value_eq_dec : EqDecision value.
Proof. solve_decision. Defined.

Inductive exn : Type :=
  | IndexError
  | KeyError
  | EngineError.

#[global] Instance exn_eq_dec : EqDecision exn.
Proof. solve_decision. Defined.

Inductive outcome (A : Type) : Type :=
  | Returned (a : A)
  | Raised (e : exn).

Arguments Returned {A} a.
Arguments Raised {A} e.

#[global] Instance outcome_ret : MRet outcome := fun A a => Returned a.

#[global] Instance outcome_bind : MBind outcome := fun A B k c =>
  match c with
  | Returned a => k a
  | Raised e => Raised e
  end.

(** [l[0]] on a Python list. *)
Definition index0 {A : Type} (l : list A) : outcome A :=
  match l with
  | [] => Raised IndexError
  | x :: _ => Returned x
  end.

(** [d[k]] on a Python dict. *)
Definition getitem {V : Type} (d : gmap string V) (k : string) : outcome V :=
  match d !! k with
  | Some v => Returned v
  | None => Raised KeyError
  end.

(** [d.get(k)]: [None] when the key is missing. *)
Definition dict_get (d : gmap string value) (k : string) : value :=
  default VNone (d !! k).

(** [d.get(k, dflt)]. *)
Definition dict_get_default {V : Type} (d : gmap string V) (k : string) (dflt : V) : V :=
  default dflt (d !! k).

(** A list comprehension whose body can raise: the first exception, in
    iteration order, propagates. *)
Fixpoint comprehension {A B : Type} (body : A -> outcome B) (l : list A) : outcome (list B) :=
  match l with
  | [] => Returned []
  | x :: rest =>
      y ← body x;
      ys ← comprehension body rest;
      mret (y :: ys)
  end.

(** Truthiness of an [Optional[int]]: [None] and [0] are falsy. *)
Definition truthy_int (v : option Z) : bool :=
  match v with
  | Some z => negb (z =? 0)
  | None => false
  end.

(** Truthiness of an [Optional[Dict]]: [None] and the empty dict are falsy. *)
Definition truthy_dict (d : option (gmap string value)) : bool :=
  match d with
  | Some m => negb (bool_decide (m = ∅))
  | None => false
  end.

(** ** Collaborating modules *)

Module Documents.

(** [lib.documents.Document], as [register] builds it. *)
Record Document : Type := {
  content : string;
  metadata : gmap string value;
}.

End Documents.

Module ShortMemory.

(** [lib.short_memory.MemoryFragment].  The fields other than [content]
    are untyped at run time: [search] fills them with whatever
    [meta.get] returns, [None] included. *)
Record MemoryFragment : Type := {
  content : string;
  owner : value;
  namespace : value;
  timestamp : value;
}.

End ShortMemory.

Module VectorDb.
Import Documents.

(** The filter predicate grammar of the engine:
    [{"$and": [ {field: {"$eq"|"$gt"|"$lt": value}}, ... ]}]. *)
Inductive operator : Type :=
  | op_eq
  | op_gt
  | op_lt.

Definition operator_key (o : operator) : string :=
  match o with
  | op_eq => "$eq"
  | op_gt => "$gt"
  | op_lt => "$lt"
  end.

(** [{cond_field: {cond_op: cond_value}}] *)
Record condition : Type := Condition {
  cond_field : string;
  cond_op : operator;
  cond_value : value;
}.

(** [{"$and": conds}] *)
Inductive where_clause : Type :=
  | WhereAnd (conds : list condition).

Definition conditions (w : where_clause) : list condition :=
  match w with WhereAnd conds => conds end.

(** The keyword arguments of one [query] call. *)
Record QueryCall : Type := {
  query_texts : list string;
  n_results : Z;
  where_ : where_clause;
}.

(** The response of [query], as [search] reads it: a dict in which each of
    the keys "documents", "metadatas" and "distances" may be absent; the
    outer list has one row per query text. *)
Record QueryResult (distance : Type) : Type := {
  documents : option (list (list string));
  metadatas : option (list (list (gmap string value)));
  distances : option (list (list distance));
}.

Arguments documents {distance} _.
Arguments metadatas {distance} _.
Arguments distances {distance} _.

(** Modelled from the spec: one element of the sequence the missing
    [VectorStore.get] returns, "{metadatas: sequence of mapping}". *)
Record GetRecord : Type := {
  record_metadatas : list (gmap string value);
}.

(** Modelled from the spec: the missing [VectorStore], the handle of one
    named collection. *)
Record VectorStore : Type := {
  store_name : string;
}.

(** Modelled from the spec: [lib/vector_db.py] is missing, so the state of
    the engine factory is the finite map from collection names to the
    stored records, in insertion order. *)
Abbreviation VectorStoreManager := (gmap string (list Document)).

(** Modelled from the spec: the missing [VectorStoreManager.create_store];
    "force=true destroys and recreates any existing collection of that
    name".  Without [force] an existing collection is kept, which no
    property below relies on. *)
Definition create_store (db : VectorStoreManager) (name : string) (force : bool)
  : VectorStoreManager * VectorStore :=
  let handle := {| store_name := name |} in
  if force then (<[name := []]> (delete name db), handle)
  else match db !! name with
       | Some _ => (db, handle)
       | None => (<[name := []]> db, handle)
       end.

(** Modelled from the spec: the records of the collection behind a handle;
    none when the factory has no collection of that name. *)
Definition records (db : VectorStoreManager) (vs : VectorStore) : list Document :=
  default [] (db !! store_name vs).

(** Modelled from the spec: the missing [VectorStore.add]; "one new record
    appended to the collection; no deduplication". *)
Definition add (db : VectorStoreManager) (vs : VectorStore) (doc : Document)
  : VectorStoreManager :=
  <[store_name vs := records db vs ++ [doc]]> db.

(** Modelled from the spec: the missing [VectorStore.get]; "bulk retrieval
    of all records' metadata", a "sequence of {metadatas: sequence of
    mapping}" with one element per record. *)
Definition get (db : VectorStoreManager) (vs : VectorStore) : list GetRecord :=
  (fun doc => {| record_metadatas := [metadata doc] |}) <$> records db vs.

(** Modelled from the spec: the meaning of one condition of a filter for
    the missing engine, "namespace == namespace", "timestamp >
    greater_than", "timestamp < less_than", on a stored metadata
    mapping. *)
Definition satisfies (meta : gmap string value) (c : condition) : bool :=
  match cond_op c, meta !! cond_field c, cond_value c with
  | op_eq, Some v, w => bool_decide (v = w)
  | op_gt, Some (VInt z), VInt b => b <? z
  | op_lt, Some (VInt z), VInt b => z <? b
  | _, _, _ => false
  end.

(** "All conditions are ANDed." *)
Definition matches (w : where_clause) (meta : gmap string value) : bool :=
  forallb (satisfies meta) (conditions w).

End VectorDb.

(** ** [lib/long_memory.py] *)

Module LongMemory.
Import Documents ShortMemory VectorDb.

Record MemorySearchResult (distance : Type) : Type := {
  fragments : list MemoryFragment;
  result_metadata : gmap string (list distance);
}.

Arguments fragments {distance} _.
Arguments result_metadata {distance} _.

Record TimestampFilter : Type := {
  greater_than_value : option Z;
  lower_than_value : option Z;
}.

Record LongTermMemory : Type := {
  vector_store : VectorStore;
}.

Definition __init__ (db : VectorStoreManager) : VectorStoreManager * LongTermMemory :=
  let '(db', vs) := create_store db "long_term_memory" true in
  (db', {| vector_store := vs |}).

Definition get_namespaces (self : LongTermMemory) (db : VectorStoreManager)
  : outcome (list value) :=
  let results := get db (vector_store self) in
  comprehension
    (fun r => m ← index0 (record_metadatas r); getitem m "namespace")
    results.

(** [d.update(m)]: the entries of [m] are written into [d] one by one, so
    on a key that both have the value of [m] stays. *)
Definition dict_update (d m : gmap string value) : gmap string value := m ∪ d.

(** Lines 87-93 of [register]. *)
Definition complete_metadata (memory_fragment : MemoryFragment)
    (metadata : option (gmap string value)) : gmap string value :=
  let complete_metadata : gmap string value :=
    {[ "owner" := owner memory_fragment;
       "namespace" := namespace memory_fragment;
       "timestamp" := timestamp memory_fragment ]} in
  if truthy_dict metadata
  then dict_update complete_metadata (default ∅ metadata)
  else complete_metadata.

(** The [Document] that [register] hands to [vector_store.add]. *)
Definition register_document (memory_fragment : MemoryFragment)
    (metadata : option (gmap string value)) : Document :=
  {| Documents.content := ShortMemory.content memory_fragment;
     Documents.metadata := complete_metadata memory_fragment metadata |}.

Definition register (self : LongTermMemory) (db : VectorStoreManager)
    (memory_fragment : MemoryFragment) (metadata : option (gmap string value))
  : VectorStoreManager :=
  add db (vector_store self) (register_document memory_fragment metadata).

(** One [if bound: where["$and"].append({"timestamp": {op: bound}})]. *)
Definition append_bound (op : operator) (bound : option Z) (conds : list condition)
  : list condition :=
  match bound with
  | Some b =>
      if truthy_int (Some b)
      then conds ++ [Condition "timestamp" op (VInt b)]
      else conds
  | None => conds
  end.

(** Lines 128-151 of [search]: the filter predicate. *)
Definition search_where (owner : string) (timestamp_filter : option TimestampFilter)
    (namespace : option string) : where_clause :=
  let conds :=
    [ Condition "namespace" op_eq (from_option VStr VNone namespace);
      Condition "owner" op_eq (VStr owner) ] in
  match timestamp_filter with
  | Some tf =>
      let conds := append_bound op_gt (greater_than_value tf) conds in
      let conds := append_bound op_lt (lower_than_value tf) conds in
      WhereAnd conds
  | None => WhereAnd conds
  end.

(** The arguments of the one [vector_store.query] call of [search]. *)
Definition search_call (query_text owner : string) (limit : Z)
    (timestamp_filter : option TimestampFilter) (namespace : option string)
  : QueryCall :=
  {| query_texts := [query_text];
     n_results := limit;
     where_ := search_where owner timestamp_filter namespace |}.

(** The body of the loop of [search]. *)
Definition rebuild (content : string) (meta : gmap string value) : MemoryFragment :=
  {| ShortMemory.content := content;
     owner := dict_get meta "owner";
     namespace := dict_get_default meta "namespace" (VStr "default");
     timestamp := dict_get meta "timestamp" |}.

Section Search.
Context {distance : Type}.

(** The missing [VectorStore.query], on the records of the collection:
    embedding and nearest-neighbour search are the engine's. *)
Variable query : list Document -> QueryCall -> outcome (QueryResult distance).

(** Lines 155-170 of [search]: from the response to the result. *)
Definition search_result (result : QueryResult distance)
  : outcome (MemorySearchResult distance) :=
  documents ← index0 (default [[]] (documents result));
  metadatas ← index0 (default [[]] (metadatas result));
  let fragments := zip_with rebuild documents metadatas in
  distances ← index0 (default [[]] (distances result));
  mret {| fragments := fragments;
          result_metadata := {[ "distances" := distances ]} |}.

(** [search]; the defaults of the source are [limit=3],
    [timestamp_filter=None] and [namespace="default"]. *)
Definition search (self : LongTermMemory) (db : VectorStoreManager)
    (query_text owner : string) (limit : Z)
    (timestamp_filter : option TimestampFilter) (namespace : option string)
  : outcome (MemorySearchResult distance) :=
  result ← query (records db (vector_store self))
             (search_call query_text owner limit timestamp_filter namespace);
  search_result result.

End Search.

End LongMemory.

(** ** Vocabulary of the properties *)

Import Documents ShortMemory VectorDb LongMemory.

(** The value the fragment itself gives to a reserved key. *)
Definition reserved_field (memory_fragment : MemoryFragment) (key : string)
  : option value :=
  if decide (key = "owner") then Some (owner memory_fragment)
  else if decide (key = "namespace") then Some (namespace memory_fragment)
  else if decide (key = "timestamp") then Some (timestamp memory_fragment)
  else None.

(** The row of a response field that [search] reads: the empty row when the
    key is absent, none when the outer list is there but empty. *)
Definition first_row {A : Type} (field : option (list (list A))) : option (list A) :=
  match field with
  | None => Some []
  | Some [] => None
  | Some (row :: _) => Some row
  end.

(** An engine that always gives the same response. *)
Definition constant_engine {distance : Type} (result : QueryResult distance)
  : list Document -> QueryCall -> outcome (QueryResult distance) :=
  fun _ _ => Returned result.

(** A history of [register] calls on one store. *)
Definition register_all (self : LongTermMemory) (db : VectorStoreManager)
    (calls : list (MemoryFragment * option (gmap string value)))
  : VectorStoreManager :=
  foldl (fun db call => register self db call.1 call.2) db calls.

(** The namespace field of a stored record. *)
Definition record_namespace (doc : Document) : option value :=
  Documents.metadata doc !! "namespace".

(** The records a response returns: contents and metadata, position by
    position. *)
Definition returned_records {distance : Type} (r : QueryResult distance)
  : list Document :=
  zip_with Documents.Build_Document
    (default [] (first_row (documents r)))
    (default [] (first_row (metadatas r))).

(** The engine returns only records of the collection that satisfy the
    filter it was given. *)
Definition respects_filter {distance : Type} (recs : list Document)
    (call : QueryCall) (r : QueryResult distance) : Prop :=
  forall doc, doc ∈ returned_records r ->
    doc ∈ recs /\ matches (where_ call) (Documents.metadata doc) = true.

(** An engine without ranking: it returns the records that satisfy the
    filter, in insertion order and at most [n_results] of them, at
    distance [0]. *)
Definition filtering_engine (recs : list Document) (call : QueryCall)
  : outcome (QueryResult Z) :=
  let hits :=
    take (Z.to_nat (n_results call))
      (filter (fun doc => matches (where_ call) (Documents.metadata doc) = true) recs) in
  Returned {| documents := Some [Documents.content <$> hits];
              metadatas := Some [Documents.metadata <$> hits];
              distances := Some [(fun _ => 0) <$> hits] |}.

(** A store handle and some fragments for the examples. *)
Definition example_store : LongTermMemory :=
  {| vector_store := {| store_name := "long_term_memory" |} |}.

Definition alice_note : MemoryFragment :=
  {| ShortMemory.content := "likes chess";
     owner := VStr "alice";
     namespace := VStr "default";
     timestamp := VInt 1000 |}.

Definition bob_note : MemoryFragment :=
  {| ShortMemory.content := "plays go";
     owner := VStr "bob";
     namespace := VStr "default";
     timestamp := VInt 2000 |}.

Definition alice_metadata : gmap string value :=
  {[ "owner" := VStr "alice"; "namespace" := VStr "default";
     "timestamp" := VInt 1000 ]}.

(** A response with the three keys and two hits; the second hit has no
    namespace in its metadata. *)
Definition two_hits : QueryResult Z :=
  {| documents := Some [["likes chess"; "plays on sundays"]];
     metadatas := Some [[alice_metadata;
                         {[ "owner" := VStr "alice"; "timestamp" := VInt 1500 ]}]];
     distances := Some [[1; 2]] |}.

(** A response with one hit and without the key "distances". *)
Definition no_distances : QueryResult Z :=
  {| documents := Some [["likes chess"]];
     metadatas := Some [[alice_metadata]];
     distances := None |}.

(** A response whose only key, "documents", is bound to the empty list. *)
Definition empty_documents : QueryResult Z :=
  {| documents := Some []; metadatas := None; distances := None |}.

(** A response without any of the three keys. *)
Definition no_keys : QueryResult Z :=
  {| documents := None; metadatas := None; distances := None |}.

(** Three notes of one owner, at times 100, 200 and 300. *)
Definition note_at (t : Z) : MemoryFragment :=
  {| ShortMemory.content := "note";
     owner := VStr "alice";
     namespace := VStr "default";
     timestamp := VInt t |}.

Definition three_notes : VectorStoreManager :=
  register_all (__init__ ∅).2 (__init__ ∅).1
    [(note_at 100, None); (note_at 200, None); (note_at 300, None)].

(** The three keys [register] writes from the fragment. *)
Definition reserved_keys : gset string :=
  {[ "owner"; "namespace"; "timestamp" ]}.

(** The keys of the optional extra metadata of a [register] call. *)
Definition extra_keys (extra : option (gmap string value)) : gset string :=
  dom (default ∅ extra).

(** The namespace a [register] call stores: the caller's entry when the
    extra metadata has one, the namespace of the fragment otherwise. *)
Definition stored_namespace (call : MemoryFragment * option (gmap string value))
  : value :=
  default (namespace call.1) (call.2 ≫= (fun m => m !! "namespace")).

(** What a [register] call stores of a fragment, as [search] reads it
    back: the content, and for each reserved key the caller's entry when
    the extra metadata has one, the field of the fragment otherwise. *)
Definition stored_fragment (call : MemoryFragment * option (gmap string value))
  : MemoryFragment :=
  {| ShortMemory.content := ShortMemory.content call.1;
     owner := default (owner call.1) (call.2 ≫= (fun m => m !! "owner"));
     namespace := stored_namespace call;
     timestamp := default (timestamp call.1) (call.2 ≫= (fun m => m !! "timestamp")) |}.

(** A bound that [search] leaves out of the filter. *)
Definition falsy_bound (bound : option Z) : Prop :=
  bound = None \/ bound = Some 0.

(** A response with two documents and the metadata of the first only. *)
Definition uneven_rows : QueryResult Z :=
  {| documents := Some [["likes chess"; "plays on sundays"]];
     metadatas := Some [[alice_metadata]];
     distances := Some [[1; 2]] |}.



(** The body of the comprehension of [get_namespaces]:
    [r["metadatas"][0]["namespace"]]. *)
Definition namespace_entry (r : GetRecord) : outcome value :=
  m ← index0 (record_metadatas r);
  getitem m "namespace".

(** Lines 71-73 of [get_namespaces] with the outcome of
    [self.vector_store.get()] as a parameter, so that a failing engine
    and records of any shape are covered. *)
Definition get_namespaces_from (engine_get : outcome (list GetRecord))
  : outcome (list value) :=
  results ← engine_get;
  comprehension namespace_entry results.

(** ** Helper lemmas *)

Lemma index0_first_row {A : Type} (field : option (list (list A))) :
  index0 (default [[]] field) =
  match first_row field with
  | Some row => Returned row
  | None => Raised IndexError
  end.
Proof. destruct field as [[|row rest]|]; reflexivity. Qed.

Lemma search_response {distance : Type}
    (query : list Document -> QueryCall -> outcome (QueryResult distance))
    (self : LongTermMemory) (db : VectorStoreManager) (query_text owner : string)
    (limit : Z) (tf : option TimestampFilter) (ns : option string)
    (r : QueryResult distance) :
  query (records db (vector_store self)) (search_call query_text owner limit tf ns)
    = Returned r ->
  search query self db query_text owner limit tf ns = search_result r.
Proof. intros H. unfold search. rewrite H. reflexivity. Qed.

Lemma reserved_lookup (mf : MemoryFragment) (key : string) :
  ({[ "owner" := owner mf; "namespace" := namespace mf;
      "timestamp" := timestamp mf ]} : gmap string value) !! key
  = reserved_field mf key.
Proof.
  unfold reserved_field.
  repeat case_decide; subst; simplify_map_eq; reflexivity.
Qed.

Lemma complete_metadata_lookup
    (mf : MemoryFragment) (extra : option (gmap string value)) (key : string) :
  complete_metadata mf extra !! key =
  match extra ≫= (fun m => m !! key) with
  | Some v => Some v
  | None => reserved_field mf key
  end.
Proof.
  unfold complete_metadata, dict_update.
  destruct extra as [m|]; simpl.
  - case_bool_decide as Hm; simpl.
    + subst m. rewrite lookup_empty. apply reserved_lookup.
    + destruct (m !! key) as [v|] eqn:Hk.
      * apply lookup_union_Some_l. exact Hk.
      * rewrite lookup_union_r by exact Hk. apply reserved_lookup.
  - apply reserved_lookup.
Qed.

(** ** register *)



(** ** search: the filter predicate *)

Lemma elem_of_append_bound (op : operator) (bound : option Z)
    (conds : list condition) (c : condition) :
  c ∈ append_bound op bound conds <->
  c ∈ conds \/ exists b, bound = Some b /\ b <> 0 /\ c = Condition "timestamp" op (VInt b).
Proof.
  unfold append_bound, truthy_int.
  destruct bound as [b|].
  - destruct (Z.eqb_spec b 0) as [Hb|Hb]; simpl.
    + split; [auto |]. intros [H | (b' & [= <-] & Hne & _)]; [exact H | contradiction].
    + rewrite elem_of_app, list_elem_of_singleton. split.
      * intros [H | ->]; [left; exact H | right; exists b; auto].
      * intros [H | (b' & [= <-] & _ & ->)]; auto.
  - split; [auto |]. intros [H | (b & Hb & _)]; [exact H | discriminate].
Qed.

Lemma filter_conditions_nodup (c1 c2 : condition) (lower upper : option Z) :
  cond_op c1 = op_eq -> cond_op c2 = op_eq -> c1 <> c2 ->
  NoDup (append_bound op_lt upper (append_bound op_gt lower [c1; c2])).
Proof.
  intros H1 H2 Hne. unfold append_bound, truthy_int.
  destruct lower as [g|], upper as [l|];
    try destruct (negb (g =? 0)); try destruct (negb (l =? 0)); simpl;
    repeat (apply NoDup_cons; split;
            [rewrite ?elem_of_cons, ?elem_of_nil; intros Hin;
             repeat destruct Hin as [Hin | Hin]; subst;
             try contradiction; try discriminate |]);
    apply NoDup_nil_2.
Qed.

(** C2: for every engine, [search] is the one [query] call on the
    collection, with the query text, the limit and a filter that is one
    "$and" conjunction, followed by the reconstruction of the response.
    The conjunction contains [{namespace: {$eq: namespace}}] and
    [{owner: {$eq: owner}}] always, [{timestamp: {$gt: g}}] exactly when a
    timestamp filter is given whose [greater_than_value] is [g], not
    [None] and not [0], [{timestamp: {$lt: l}}] exactly when one is given
    whose [lower_than_value] is [l], not [None] and not [0], and nothing
    else. *)
Theorem search_filter_conditions {distance : Type}
    (query : list Document -> QueryCall -> outcome (QueryResult distance))
    (self : LongTermMemory) (db : VectorStoreManager)
    (query_text owner : string) (limit : Z)
    (timestamp_filter : option TimestampFilter) (namespace : option string) :
  exists conds,
    search query self db query_text owner limit timestamp_filter namespace =
      (result ← query (records db (vector_store self))
                  {| query_texts := [query_text];
                     n_results := limit;
                     where_ := WhereAnd conds |};
       search_result result) /\
    where_ (search_call query_text owner limit timestamp_filter namespace)
      = WhereAnd conds /\
    NoDup conds /\
    forall c, c ∈ conds <->
      c = Condition "namespace" op_eq (from_option VStr VNone namespace) \/
      c = Condition "owner" op_eq (VStr owner) \/
      (exists tf g, timestamp_filter = Some tf /\ greater_than_value tf = Some g /\
                    g <> 0 /\ c = Condition "timestamp" op_gt (VInt g)) \/
      (exists tf l, timestamp_filter = Some tf /\ lower_than_value tf = Some l /\
                    l <> 0 /\ c = Condition "timestamp" op_lt (VInt l)).
Proof.
  unfold search, search_call, search_where.
  destruct timestamp_filter as [tf|]; eexists;
    (split; [reflexivity |]); (split; [reflexivity |]);
    (split; [first [ apply filter_conditions_nodup
                   | apply (filter_conditions_nodup _ _ None None) ];
             [reflexivity | reflexivity | discriminate] |]);
    intros c.
  - rewrite !elem_of_append_bound, elem_of_cons, list_elem_of_singleton.
    split.
    + intros [[[H | H] | (g & Hg & Hne & Hc)] | (l & Hl & Hne & Hc)]; eauto 10.
    + intros [H | [H | [(tf' & g & [= <-] & Hg & Hne & Hc)
                       | (tf' & l & [= <-] & Hl & Hne & Hc)]]]; eauto 10.
  - rewrite elem_of_cons, list_elem_of_singleton.
    split.
    + intros [H | H]; auto.
    + intros [H | [H | [(tf' & g & Htf & _) | (tf' & l & Htf & _)]]];
        auto; discriminate.
Qed.

(** C3: a lower bound of [0] is left out of the filter.  With
    [TimestampFilter(greater_than_value=0)] the engine gets the same query,
    and [search] gives the same outcome, as with a filter that sets no
    lower bound and as with no filter at all; the same holds next to any
    upper bound. *)
Theorem search_zero_lower_bound {distance : Type}
    (query : list Document -> QueryCall -> outcome (QueryResult distance))
    (self : LongTermMemory) (db : VectorStoreManager)
    (query_text owner : string) (limit : Z) (namespace : option string) :
  let zero := {| greater_than_value := Some 0; lower_than_value := None |} in
  let unset := {| greater_than_value := None; lower_than_value := None |} in
  (search_call query_text owner limit (Some zero) namespace
     = search_call query_text owner limit (Some unset) namespace /\
   search_call query_text owner limit (Some zero) namespace
     = search_call query_text owner limit None namespace /\
   search query self db query_text owner limit (Some zero) namespace
     = search query self db query_text owner limit (Some unset) namespace /\
   search query self db query_text owner limit (Some zero) namespace
     = search query self db query_text owner limit None namespace) /\
  forall upper : option Z,
    search_call query_text owner limit
      (Some {| greater_than_value := Some 0; lower_than_value := upper |}) namespace
    = search_call query_text owner limit
      (Some {| greater_than_value := None; lower_than_value := upper |}) namespace /\
    search query self db query_text owner limit
      (Some {| greater_than_value := Some 0; lower_than_value := upper |}) namespace
    = search query self db query_text owner limit
      (Some {| greater_than_value := None; lower_than_value := upper |}) namespace.
Proof.
  repeat split.
Qed.

(** ** search: from the response to the result *)

Lemma search_result_rows {distance : Type} (r : QueryResult distance) :
  search_result r =
  match first_row (documents r), first_row (metadatas r), first_row (distances r) with
  | Some docs, Some metas, Some dists =>
      Returned {| fragments := zip_with rebuild docs metas;
                  result_metadata := {[ "distances" := dists ]} |}
  | _, _, _ => Raised IndexError
  end.
Proof.
  unfold search_result. rewrite !index0_first_row.
  destruct (first_row (documents r)) as [docs|]; simpl; [| reflexivity].
  destruct (first_row (metadatas r)) as [metas|]; simpl; [| reflexivity].
  destruct (first_row (distances r)) as [dists|]; reflexivity.
Qed.

Lemma first_row_present {A : Type} (field : option (list (list A))) :
  field <> Some [] -> exists row, first_row field = Some row /\ (field = None -> row = []).
Proof.
  destruct field as [[|row rest]|]; intros H.
  - contradiction.
  - exists row. split; [reflexivity | discriminate].
  - exists []. split; reflexivity.
Qed.

Section Response.
Context {distance : Type}.
Variable query : list Document -> QueryCall -> outcome (QueryResult distance).
Variables (self : LongTermMemory) (db : VectorStoreManager).
Variables (query_text owner : string) (limit : Z).
Variables (timestamp_filter : option TimestampFilter) (namespace : option string).

(** The engine answers the query of this call with [r]. *)
Local Abbreviation answered r :=
  (query (records db (vector_store self))
     (search_call query_text owner limit timestamp_filter namespace) = Returned r).

(** C4, as the code has it: the result has as many fragments as the
    shorter of the document row and the metadata row of the response,
    and exposes the distance row as it is; the two lengths agree whenever
    the three rows of the response have the same length. *)
Theorem search_alignment (r : QueryResult distance)
    (res : MemorySearchResult distance) :
  answered r ->
  search query self db query_text owner limit timestamp_filter namespace
    = Returned res ->
  exists docs metas dists,
    first_row (documents r) = Some docs /\
    first_row (metadatas r) = Some metas /\
    first_row (distances r) = Some dists /\
    result_metadata res !! "distances" = Some dists /\
    length (fragments res) = Nat.min (length docs) (length metas) /\
    (length docs = length dists -> length metas = length dists ->
     length (fragments res) = length dists).
Proof.
  intros Hr. rewrite (search_response _ _ _ _ _ _ _ _ _ Hr), search_result_rows.
  destruct (first_row (documents r)) as [docs|]; [| discriminate].
  destruct (first_row (metadatas r)) as [metas|]; [| discriminate].
  destruct (first_row (distances r)) as [dists|]; [| discriminate].
  intros [= <-]. exists docs, metas, dists. simpl.
  rewrite lookup_singleton_eq, length_zip_with.
  repeat split. intros H1 H2. rewrite H1, H2. apply Nat.min_id.
Qed.

(** C5, as the code has it: when no key of the response is bound to an
    empty outer list, [search] returns; an absent key counts as an empty
    row, so that no fragment is built when "documents" or "metadatas" is
    absent and the distances are empty when "distances" is absent, and a
    response without the three keys gives the empty result. *)
Theorem search_absent_keys_default (r : QueryResult distance) :
  answered r ->
  documents r <> Some [] ->
  metadatas r <> Some [] ->
  distances r <> Some [] ->
  exists res,
    search query self db query_text owner limit timestamp_filter namespace
      = Returned res /\
    (documents r = None -> fragments res = []) /\
    (metadatas r = None -> fragments res = []) /\
    (distances r = None -> result_metadata res !! "distances" = Some []) /\
    (documents r = None -> metadatas r = None -> distances r = None ->
     res = {| fragments := []; result_metadata := {[ "distances" := [] ]} |}).
Proof.
  intros Hr Hd Hm Hs.
  rewrite (search_response _ _ _ _ _ _ _ _ _ Hr), search_result_rows.
  destruct (first_row_present _ Hd) as (docs & -> & Hdocs).
  destruct (first_row_present _ Hm) as (metas & -> & Hmetas).
  destruct (first_row_present _ Hs) as (dists & -> & Hdists).
  eexists. split; [reflexivity |]. simpl. repeat split.
  - intros H. rewrite (Hdocs H). reflexivity.
  - intros H. rewrite (Hmetas H). destruct docs; reflexivity.
  - intros H. rewrite (Hdists H). apply lookup_singleton_eq.
  - intros H1 H2 H3. rewrite (Hdocs H1), (Hdists H3). reflexivity.
Qed.

(** C6: on a response that has the three keys, each with a first row, the
    document row as long as the metadata row, [search] returns one
    fragment per position, in the order of the response: the fragment at
    position [i] has the content of document [i], the owner and the
    timestamp found in metadata [i] ([None] when missing) and its
    namespace, "default" when missing; the distance row is the value of
    the key "distances" of the result metadata. *)
Theorem search_rebuilds_in_order (r : QueryResult distance)
    (docs : list string) (metas : list (gmap string value)) (dists : list distance)
    (more_docs : list (list string)) (more_metas : list (list (gmap string value)))
    (more_dists : list (list distance)) :
  answered r ->
  documents r = Some (docs :: more_docs) ->
  metadatas r = Some (metas :: more_metas) ->
  distances r = Some (dists :: more_dists) ->
  length docs = length metas ->
  exists res,
    search query self db query_text owner limit timestamp_filter namespace
      = Returned res /\
    length (fragments res) = length docs /\
    (forall (i : nat) (c : string) (m : gmap string value),
       docs !! i = Some c -> metas !! i = Some m ->
       fragments res !! i =
         Some {| ShortMemory.content := c;
                 ShortMemory.owner := default VNone (m !! "owner");
                 ShortMemory.namespace := default (VStr "default") (m !! "namespace");
                 ShortMemory.timestamp := default VNone (m !! "timestamp") |}) /\
    ShortMemory.content <$> fragments res = docs /\
    result_metadata res = {[ "distances" := dists ]}.
Proof.
  intros Hr Hd Hm Hs Hlen.
  rewrite (search_response _ _ _ _ _ _ _ _ _ Hr), search_result_rows.
  rewrite Hd, Hm, Hs; simpl.
  eexists. split; [reflexivity |]. simpl. repeat split.
  - rewrite length_zip_with, <- Hlen. apply Nat.min_id.
  - intros i c m Hc Hmi. rewrite lookup_zip_with, Hc; simpl. rewrite Hmi. reflexivity.
  - clear Hd Hm. revert metas Hlen.
    induction docs as [|c docs' IH]; intros [|m metas'] Hlen;
      try discriminate; [reflexivity |].
    simpl. f_equal. apply IH. simpl in Hlen. congruence.
Qed.

(** C10: when one of the three keys of the response is bound to an empty
    outer list, [search] raises [IndexError]. *)
Theorem search_empty_outer_list_raises (r : QueryResult distance) :
  answered r ->
  documents r = Some [] \/ metadatas r = Some [] \/ distances r = Some [] ->
  search query self db query_text owner limit timestamp_filter namespace
    = Raised IndexError.
Proof.
  intros Hr H.
  rewrite (search_response _ _ _ _ _ _ _ _ _ Hr), search_result_rows.
  destruct H as [H | [H | H]]; rewrite H; simpl.
  - reflexivity.
  - destruct (first_row (documents r)); reflexivity.
  - destruct (first_row (documents r)), (first_row (metadatas r)); reflexivity.
Qed.

End Response.

(** ** The collection: construction, register, get_namespaces *)

Lemma records_init (db0 : VectorStoreManager) :
  records (__init__ db0).1 (vector_store (__init__ db0).2) = [].
Proof. unfold records; simpl. rewrite lookup_insert_eq. reflexivity. Qed.

Lemma records_add (db : VectorStoreManager) (vs : VectorStore) (doc : Document) :
  records (add db vs doc) vs = records db vs ++ [doc].
Proof. unfold add. unfold records at 1. rewrite lookup_insert_eq. reflexivity. Qed.

Lemma records_register_all (self : LongTermMemory) (db : VectorStoreManager)
    (calls : list (MemoryFragment * option (gmap string value))) :
  records (register_all self db calls) (vector_store self) =
  records db (vector_store self)
    ++ ((fun call => register_document call.1 call.2) <$> calls).
Proof.
  revert db. induction calls as [|call calls IH]; intros db; simpl.
  - rewrite app_nil_r. reflexivity.
  - unfold register_all in *. simpl. rewrite IH. unfold register.
    rewrite records_add, <- app_assoc. reflexivity.
Qed.

Lemma registered_namespace (mf : MemoryFragment) (extra : option (gmap string value)) :
  is_Some (record_namespace (register_document mf extra)).
Proof.
  unfold record_namespace, register_document; simpl.
  rewrite complete_metadata_lookup.
  destruct (extra ≫= _); [eauto |]. unfold reserved_field; simpl. eauto.
Qed.

Lemma get_namespaces_records (self : LongTermMemory) (db : VectorStoreManager) :
  Forall (fun doc => is_Some (record_namespace doc)) (records db (vector_store self)) ->
  get_namespaces self db =
  Returned ((fun doc => default VNone (record_namespace doc))
              <$> records db (vector_store self)).
Proof.
  unfold get_namespaces, get.
  induction (records db (vector_store self)) as [|doc recs IH]; intros H.
  - reflexivity.
  - apply Forall_cons in H as [[v Hv] Hrest].
    rewrite !fmap_cons. cbn [comprehension index0 record_metadatas].
    rewrite (IH Hrest).
    unfold record_namespace in Hv |- *.
    unfold mbind, outcome_bind, getitem. rewrite Hv. reflexivity.
Qed.

(** C7: after any history of [register] calls on a new store, the
    collection holds one record per call, in order, and [get_namespaces]
    returns the namespace field of every record, in order and with
    repetitions: as many entries as records, and each namespace as often as
    there are records that carry it.  On the empty collection it returns
    the empty sequence. *)
Theorem get_namespaces_one_per_record (db0 : VectorStoreManager)
    (calls : list (MemoryFragment * option (gmap string value))) :
  let self := (__init__ db0).2 in
  let db := register_all self (__init__ db0).1 calls in
  let recs := records db (vector_store self) in
  recs = (fun call => register_document call.1 call.2) <$> calls /\
  get_namespaces self (__init__ db0).1 = Returned [] /\
  exists names,
    get_namespaces self db = Returned names /\
    length names = length recs /\
    Some <$> names = record_namespace <$> recs /\
    forall ns : value,
      length (filter (fun name => name = ns) names) =
      length (filter (fun doc => record_namespace doc = Some ns) recs).
Proof.
  intros self db recs.
  assert (Hrecs : recs = (fun call => register_document call.1 call.2) <$> calls).
  { unfold recs, db. rewrite records_register_all. unfold self.
    rewrite records_init. reflexivity. }
  assert (Hall : Forall (fun doc => is_Some (record_namespace doc)) recs).
  { rewrite Hrecs. apply Forall_fmap, Forall_forall. intros call _.
    apply registered_namespace. }
  split; [exact Hrecs |]. split.
  { rewrite get_namespaces_records; unfold self; rewrite records_init;
      [reflexivity | constructor]. }
  eexists. split; [apply get_namespaces_records; exact Hall |].
  fold recs. clear Hrecs. split; [apply length_fmap |].
  induction Hall as [|doc rest [v Hv] _ IH]; [split; [reflexivity | intros; reflexivity] |].
  destruct IH as [IH1 IH2]. split.
  - simpl. rewrite Hv; simpl. f_equal. exact IH1.
  - intros ns. rewrite fmap_cons, !filter_cons, Hv; simpl.
    specialize (IH2 ns).
    destruct (decide (v = ns)) as [->|Hne].
    + rewrite decide_True by reflexivity. simpl. congruence.
    + rewrite decide_False by congruence. exact IH2.
Qed.

(** C9: constructing a store asks the factory for the collection named
    "long_term_memory" with [force] set; whatever the factory held under
    that name before, the collection of the new store is empty, and the
    other collections are left as they were. *)
Theorem init_recreates_collection (db0 : VectorStoreManager) :
  __init__ db0 =
    ((create_store db0 "long_term_memory" true).1,
     {| vector_store := (create_store db0 "long_term_memory" true).2 |}) /\
  store_name (vector_store (__init__ db0).2) = "long_term_memory" /\
  (__init__ db0).1 !! "long_term_memory" = Some [] /\
  records (__init__ db0).1 (vector_store (__init__ db0).2) = [] /\
  get (__init__ db0).1 (vector_store (__init__ db0).2) = [] /\
  forall name : string,
    name <> "long_term_memory" -> (__init__ db0).1 !! name = db0 !! name.
Proof.
  split; [reflexivity |]. split; [reflexivity |].
  split; [apply lookup_insert_eq |].
  split; [apply records_init |].
  split; [unfold get; rewrite records_init; reflexivity |].
  intros name Hname. simpl.
  rewrite lookup_insert_ne, lookup_delete_ne by congruence. reflexivity.
Qed.

(** ** search: owner isolation *)

Lemma owner_condition_submitted (owner : string)
    (tf : option TimestampFilter) (ns : option string) :
  Condition "owner" op_eq (VStr owner) ∈ conditions (search_where owner tf ns).
Proof.
  unfold search_where. destruct tf as [tf|]; simpl.
  - rewrite !elem_of_append_bound. left. left. set_solver.
  - set_solver.
Qed.

Lemma matches_condition (w : where_clause) (meta : gmap string value) (c : condition) :
  matches w meta = true -> c ∈ conditions w -> satisfies meta c = true.
Proof.
  unfold matches. rewrite forallb_forall. intros H Hc.
  apply H, list_elem_of_In, Hc.
Qed.

Lemma satisfies_eq (meta : gmap string value) (field : string) (v : value) :
  satisfies meta (Condition field op_eq v) = true -> meta !! field = Some v.
Proof.
  unfold satisfies; simpl. destruct (meta !! field) as [w|]; [| discriminate].
  intros H. apply bool_decide_eq_true in H. congruence.
Qed.

Lemma reserved_owner (mf : MemoryFragment) (extra : option (gmap string value))
    (v : value) :
  extra ≫= (fun m => m !! "owner") = None ->
  Documents.metadata (register_document mf extra) !! "owner" = Some v ->
  ShortMemory.owner mf = v.
Proof.
  intros Hno. unfold register_document; simpl.
  rewrite complete_metadata_lookup, Hno. unfold reserved_field; simpl. congruence.
Qed.

Lemma rebuild_returned_records (docs : list string) (metas : list (gmap string value)) :
  zip_with rebuild docs metas =
  (fun doc => rebuild (Documents.content doc) (Documents.metadata doc))
    <$> zip_with Documents.Build_Document docs metas.
Proof.
  revert metas. induction docs as [|c docs' IH]; intros [|m metas'];
    simpl; try reflexivity.
  f_equal. apply IH.
Qed.

(** C8, as the code has it: take a new store and any history of
    [register] calls, and an engine that answers a query only with records
    of the collection that satisfy the filter it was given.  The fragments
    [search(q, owner=A)] returns are rebuilt, one by one, from the records
    of the response, and all have owner [A].  Each of these records was
    stored by a [register] call and carries owner [A]; unless that call
    set "owner" in its extra metadata, the fragment it registered has
    owner [A].  So the record of a fragment registered with an owner [B]
    other than [A], by a call whose extra metadata does not set "owner",
    is never among the records that [search] returns fragments for. *)
Theorem search_owner_isolation {distance : Type}
    (query : list Document -> QueryCall -> outcome (QueryResult distance))
    (db0 : VectorStoreManager)
    (calls : list (MemoryFragment * option (gmap string value)))
    (query_text A B : string) (limit : Z)
    (timestamp_filter : option TimestampFilter) (namespace : option string)
    (r : QueryResult distance) (res : MemorySearchResult distance) :
  let self := (__init__ db0).2 in
  let db := register_all self (__init__ db0).1 calls in
  let call := search_call query_text A limit timestamp_filter namespace in
  A <> B ->
  query (records db (vector_store self)) call = Returned r ->
  respects_filter (records db (vector_store self)) call r ->
  search query self db query_text A limit timestamp_filter namespace = Returned res ->
  fragments res =
    (fun doc => rebuild (Documents.content doc) (Documents.metadata doc))
      <$> returned_records r /\
  (forall f, f ∈ fragments res -> ShortMemory.owner f = VStr A) /\
  (forall doc, doc ∈ returned_records r ->
     exists mf extra,
       (mf, extra) ∈ calls /\
       doc = register_document mf extra /\
       Documents.metadata doc !! "owner" = Some (VStr A) /\
       (extra ≫= (fun m => m !! "owner") = None -> ShortMemory.owner mf = VStr A)) /\
  (forall mf extra,
     (mf, extra) ∈ calls ->
     ShortMemory.owner mf = VStr B ->
     extra ≫= (fun m => m !! "owner") = None ->
     register_document mf extra ∉ returned_records r).
Proof.
  intros self db call HAB Hr Hresp.
  rewrite (search_response _ _ _ _ _ _ _ _ _ Hr), search_result_rows.
  assert (Hrecs : records db (vector_store self)
                  = (fun call => register_document call.1 call.2) <$> calls).
  { unfold db. rewrite records_register_all. unfold self.
    rewrite records_init. reflexivity. }
  unfold respects_filter in Hresp. rewrite Hrecs in Hresp.
  clear Hrecs Hr. unfold returned_records in *.
  destruct (first_row (documents r)) as [docs|]; [| discriminate].
  destruct (first_row (metadatas r)) as [metas|]; [| discriminate].
  destruct (first_row (distances r)) as [dists|]; [| discriminate].
  intros [= <-]. simpl in *.
  assert (Howner : forall doc, doc ∈ zip_with Documents.Build_Document docs metas ->
            Documents.metadata doc !! "owner" = Some (VStr A)).
  { intros doc Hin. destruct (Hresp doc Hin) as [_ Hmatch].
    apply (satisfies_eq _ _ _
      (matches_condition _ _ _ Hmatch
         (owner_condition_submitted A timestamp_filter namespace))). }
  split; [apply rebuild_returned_records |]. split; [| split].
  - intros f Hf. rewrite rebuild_returned_records in Hf.
    apply list_elem_of_fmap in Hf as (doc & -> & Hdoc).
    unfold rebuild, dict_get; simpl. rewrite (Howner doc Hdoc). reflexivity.
  - intros doc Hin. destruct (Hresp doc Hin) as [Hreg _].
    apply list_elem_of_fmap in Hreg as ([mf extra] & Hdoc & Hcall).
    simpl in Hdoc. exists mf, extra.
    split; [exact Hcall |]. split; [exact Hdoc |].
    split; [exact (Howner doc Hin) |].
    intros Hno. apply (reserved_owner mf extra _ Hno).
    rewrite <- Hdoc. exact (Howner doc Hin).
  - intros mf extra _ HB Hno Hin.
    pose proof (reserved_owner mf extra _ Hno (Howner _ Hin)) as HA.
    congruence.
Qed.

(** The engine without ranking satisfies the hypothesis of isolation on
    every collection. *)
Lemma filtering_engine_respects (recs : list Document) (call : QueryCall)
    (r : QueryResult Z) :
  filtering_engine recs call = Returned r -> respects_filter recs call r.
Proof.
  unfold filtering_engine. intros [= <-] doc. unfold returned_records; simpl.
  set (hits := take _ _).
  assert (Hhits : zip_with Build_Document (Documents.content <$> hits)
                    (Documents.metadata <$> hits) = hits).
  { induction hits as [|[c m] hits IH]; simpl; [reflexivity |]. f_equal. exact IH. }
  rewrite Hhits. unfold hits. intros Hin.
  apply subseteq_take in Hin. apply list_elem_of_filter in Hin as [Hmatch Hin].
  split; assumption.
Qed.

(** ** Counterexamples and instances *)

(** C4 fails as stated: on a response with one hit and without the key
    "distances", [search] returns one fragment and no distance. *)
Lemma search_alignment_fails_without_distances :
  exists res dists,
    search (constant_engine no_distances) example_store ∅
      "chess" "alice" 3 None (Some "default") = Returned res /\
    result_metadata res !! "distances" = Some dists /\
    length (fragments res) = 1%nat /\
    length dists = 0%nat /\
    length (fragments res) <> length dists.
Proof.
  eexists _, _. split; [reflexivity |]. split; [reflexivity |].
  repeat split. discriminate.
Qed.

(** C5 fails as stated: on a response that lacks "metadatas" and
    "distances" and binds "documents" to the empty list, [search] raises. *)
Lemma search_raises_on_empty_documents :
  metadatas empty_documents = None /\
  distances empty_documents = None /\
  search (constant_engine empty_documents) example_store ∅
    "chess" "alice" 3 None (Some "default") = Raised IndexError.
Proof. repeat split. Qed.

(** Alignment on the response with two hits and two distances. *)
Lemma search_alignment_witness :
  exists res,
    search (constant_engine two_hits) example_store ∅
      "chess" "alice" 3 None (Some "default") = Returned res /\
    result_metadata res !! "distances" = Some [1; 2] /\
    length (fragments res) = 2%nat.
Proof.
  eexists. split; [reflexivity |].
  destruct (search_alignment (constant_engine two_hits) example_store ∅
              "chess" "alice" 3 None (Some "default") two_hits _
              eq_refl eq_refl)
    as (docs & metas & dists & Hd & Hm & Hs & Hres & _ & Hlen).
  injection Hd as <-. injection Hm as <-. injection Hs as <-.
  split; [exact Hres |]. apply Hlen; reflexivity.
Defined.

(** The response without keys gives the empty result. *)
Lemma search_absent_keys_default_witness :
  exists res,
    search (constant_engine no_keys) example_store ∅
      "chess" "alice" 3 None (Some "default") = Returned res /\
    res = {| fragments := []; result_metadata := {[ "distances" := [] ]} |}.
Proof.
  destruct (search_absent_keys_default (constant_engine no_keys) example_store ∅
              "chess" "alice" 3 None (Some "default") no_keys eq_refl
              ltac:(discriminate) ltac:(discriminate) ltac:(discriminate))
    as (res & Hres & _ & _ & _ & Hempty).
  exists res. split; [exact Hres |]. apply Hempty; reflexivity.
Defined.

(** The second hit of the response with two hits: its namespace is
    missing and reads "default". *)
Lemma search_rebuilds_in_order_witness :
  exists res,
    search (constant_engine two_hits) example_store ∅
      "chess" "alice" 3 None (Some "default") = Returned res /\
    fragments res !! 1%nat =
      Some {| ShortMemory.content := "plays on sundays";
              ShortMemory.owner := VStr "alice";
              ShortMemory.namespace := VStr "default";
              ShortMemory.timestamp := VInt 1500 |} /\
    result_metadata res = {[ "distances" := [1; 2] ]}.
Proof.
  destruct (search_rebuilds_in_order (constant_engine two_hits) example_store ∅
              "chess" "alice" 3 None (Some "default") two_hits
              _ _ _ _ _ _ eq_refl eq_refl eq_refl eq_refl eq_refl)
    as (res & Hres & _ & Hpos & _ & Hdist).
  exists res. split; [exact Hres |]. split; [| exact Hdist].
  apply (Hpos 1%nat "plays on sundays" _ eq_refl eq_refl).
Defined.

(** "documents" bound to the empty list. *)
Lemma search_empty_outer_list_raises_witness :
  search (constant_engine empty_documents) example_store ∅
    "chess" "alice" 3 None (Some "default") = Raised IndexError.
Proof.
  apply (search_empty_outer_list_raises (constant_engine empty_documents)
           example_store ∅ "chess" "alice" 3 None (Some "default")
           empty_documents eq_refl).
  left. reflexivity.
Defined.

(** C8 fails as stated: Bob's note is registered with {"owner": "alice"}
    as extra metadata.  The engine answers Alice's search only with
    records of the collection that satisfy the filter, and [search]
    returns the content of the fragment that was registered under owner
    Bob. *)
Lemma search_isolation_fails_with_owner_override :
  let calls := [(bob_note, Some ({[ "owner" := VStr "alice" ]} : gmap string value))] in
  let self := (__init__ ∅).2 in
  let db := register_all self (__init__ ∅).1 calls in
  let call := search_call "go" "alice" 3 None (Some "default") in
  ShortMemory.owner bob_note = VStr "bob" /\
  exists r,
    filtering_engine (records db (vector_store self)) call = Returned r /\
    respects_filter (records db (vector_store self)) call r /\
    returned_records r
      = [register_document bob_note (Some {[ "owner" := VStr "alice" ]})] /\
    search filtering_engine self db "go" "alice" 3 None (Some "default")
      = Returned {| fragments :=
                      [ {| ShortMemory.content := ShortMemory.content bob_note;
                           owner := VStr "alice";
                           namespace := VStr "default";
                           timestamp := VInt 2000 |} ];
                    result_metadata := {[ "distances" := [0] ]} |}.
Proof.
  intros calls self db call. split; [reflexivity |].
  eexists. split; [reflexivity |].
  split; [apply filtering_engine_respects; reflexivity |].
  split; vm_compute; reflexivity.
Qed.

(** Alice and Bob each register a note without extra metadata; a search
    for Alice is answered with the record of her note only. *)
Lemma search_owner_isolation_witness :
  let calls := [(alice_note, None); (bob_note, None)] in
  let self := (__init__ ∅).2 in
  let db := register_all self (__init__ ∅).1 calls in
  exists r res,
    filtering_engine (records db (vector_store self))
      (search_call "chess" "alice" 3 None (Some "default")) = Returned r /\
    search filtering_engine self db "chess" "alice" 3 None (Some "default")
      = Returned res /\
    fragments res = [alice_note] /\
    register_document bob_note None ∉ returned_records r.
Proof.
  intros calls self db.
  eexists _, _. split; [reflexivity |].
  split; [vm_compute; reflexivity |]. split; [reflexivity |].
  refine (proj2 (proj2 (proj2
            (search_owner_isolation filtering_engine ∅ calls
               "chess" "alice" "bob" 3 None (Some "default") _ _
               ltac:(discriminate) eq_refl
               (filtering_engine_respects _ _ _ eq_refl) eq_refl)))
            bob_note None _ eq_refl eq_refl).
  unfold calls. apply list_elem_of_In. simpl. auto.
Defined.

(** ** The store at work *)

(** Both bounds set: four conditions, in the order of the source. *)
Example search_where_both_bounds :
  search_where "alice"
    (Some {| greater_than_value := Some 150; lower_than_value := Some 250 |})
    (Some "default")
  = WhereAnd [ Condition "namespace" op_eq (VStr "default");
               Condition "owner" op_eq (VStr "alice");
               Condition "timestamp" op_gt (VInt 150);
               Condition "timestamp" op_lt (VInt 250) ].
Proof. reflexivity. Qed.

(** Of the notes at 100, 200 and 300 only the one at 200 lies strictly
    between 150 and 250. *)
Example search_between_bounds :
  search filtering_engine (__init__ ∅).2 three_notes "note" "alice" 3
    (Some {| greater_than_value := Some 150; lower_than_value := Some 250 |})
    (Some "default")
  = Returned {| fragments := [note_at 200];
                result_metadata := {[ "distances" := [0] ]} |}.
Proof. vm_compute. reflexivity. Qed.

(** A fragment registered without extra metadata comes back as it was. *)
Example search_round_trip :
  fragments <$>
    (match search filtering_engine (__init__ ∅).2
             (register (__init__ ∅).2 (__init__ ∅).1 alice_note None)
             "chess" "alice" 3 None (Some "default") with
     | Returned res => Some res
     | Raised _ => None
     end)
  = Some [alice_note].
Proof. vm_compute. reflexivity. Qed.

(** [get_namespaces] repeats a shared namespace. *)
Example get_namespaces_repeats :
  get_namespaces (__init__ ∅).2 three_notes
  = Returned [VStr "default"; VStr "default"; VStr "default"].
Proof. vm_compute. reflexivity. Qed.

(** ** Further properties of register *)


(** ** Further properties of search *)

Lemma extra_lookup_reserved (extra : option (gmap string value)) (key : string) :
  extra_keys extra ## reserved_keys -> key ∈ reserved_keys ->
  extra ≫= (fun m => m !! key) = None.
Proof.
  unfold extra_keys. intros Hdisj Hkey.
  destruct extra as [m|]; simpl; [| reflexivity].
  apply not_elem_of_dom. intros Hin. exact (Hdisj key Hin Hkey).
Qed.

Lemma rebuild_registered (mf : MemoryFragment) (extra : option (gmap string value)) :
  extra_keys extra ## reserved_keys ->
  rebuild (Documents.content (register_document mf extra))
          (Documents.metadata (register_document mf extra)) = mf.
Proof.
  intros Hdisj. destruct mf as [c o n t].
  unfold rebuild, dict_get, dict_get_default, register_document; simpl.
  rewrite !complete_metadata_lookup.
  rewrite !(extra_lookup_reserved extra _ Hdisj) by (unfold reserved_keys; set_solver).
  reflexivity.
Qed.

(** X2: a record that [register] stored with extra metadata free of the
    reserved keys is rebuilt by [search] into the fragment that was
    registered.  When the engine answers with the records of some
    [register] calls of that kind, [search] returns the fragments of these
    calls, in the order of the response. *)
Theorem search_returns_registered_fragments {distance : Type}
    (query : list Document -> QueryCall -> outcome (QueryResult distance))
    (self : LongTermMemory) (db : VectorStoreManager)
    (query_text owner : string) (limit : Z)
    (timestamp_filter : option TimestampFilter) (namespace : option string)
    (calls : list (MemoryFragment * option (gmap string value)))
    (dists : list distance) (r : QueryResult distance) :
  let docs := (fun call => register_document call.1 call.2) <$> calls in
  Forall (fun call => extra_keys call.2 ## reserved_keys) calls ->
  query (records db (vector_store self))
    (search_call query_text owner limit timestamp_filter namespace) = Returned r ->
  documents r = Some [Documents.content <$> docs] ->
  metadatas r = Some [Documents.metadata <$> docs] ->
  distances r = Some [dists] ->
  search query self db query_text owner limit timestamp_filter namespace
    = Returned {| fragments := calls.*1;
                  result_metadata := {[ "distances" := dists ]} |}.
Proof.
  intros docs Hcalls Hr Hd Hm Hs.
  rewrite (search_response _ _ _ _ _ _ _ _ _ Hr), search_result_rows.
  rewrite Hd, Hm, Hs; simpl. do 2 f_equal.
  unfold docs. clear -Hcalls.
  induction Hcalls as [|[mf extra] calls Hcall _ IH]; simpl; [reflexivity |].
  f_equal; [| exact IH]. apply (rebuild_registered mf extra Hcall).
Qed.

(** The round trip at Alice's and Bob's notes, one of them with an extra
    key. *)
Lemma search_returns_registered_fragments_witness :
  let calls := [(alice_note, Some {[ "topic" := VStr "games" ]}); (bob_note, None)] in
  let docs := (fun call => register_document call.1 call.2) <$> calls in
  let r := {| documents := Some [Documents.content <$> docs];
              metadatas := Some [Documents.metadata <$> docs];
              distances := Some [[1; 2]] |} in
  search (constant_engine r) example_store ∅ "chess" "alice" 3 None (Some "default")
    = Returned {| fragments := [alice_note; bob_note];
                  result_metadata := {[ "distances" := [1; 2] ]} |}.
Proof.
  intros calls docs r.
  apply (search_returns_registered_fragments (constant_engine r) example_store ∅
           "chess" "alice" 3 None (Some "default") calls [1; 2] r);
    try reflexivity.
  unfold calls. repeat constructor; simpl; unfold extra_keys, reserved_keys; simpl.
  - rewrite dom_singleton_L. apply disjoint_singleton_l.
    rewrite !not_elem_of_union, !not_elem_of_singleton.
    repeat split; discriminate.
  - rewrite dom_empty_L. apply disjoint_empty_l.
Defined.

Lemma first_row_none {A : Type} (field : option (list (list A))) :
  first_row field = None <-> field = Some [].
Proof. destruct field as [[|row rest]|]; simpl; split; congruence. Qed.

(** X3: [search] raises in two cases only.  An exception of the engine
    passes through unchanged; and when the engine answers, [search] raises
    exactly when one of the three keys of the response is bound to an empty
    outer list, and then it is [IndexError].  In particular [search] never
    raises [KeyError] of its own. *)
Theorem search_raises_iff {distance : Type}
    (query : list Document -> QueryCall -> outcome (QueryResult distance))
    (self : LongTermMemory) (db : VectorStoreManager)
    (query_text owner : string) (limit : Z)
    (timestamp_filter : option TimestampFilter) (namespace : option string)
    (e : exn) :
  let answer :=
    query (records db (vector_store self))
      (search_call query_text owner limit timestamp_filter namespace) in
  search query self db query_text owner limit timestamp_filter namespace = Raised e
  <->
  answer = Raised e \/
  exists r, answer = Returned r /\ e = IndexError /\
            (documents r = Some [] \/ metadatas r = Some [] \/ distances r = Some []).
Proof.
  intros answer. unfold search. fold answer.
  destruct answer as [r|e'] eqn:Hanswer; simpl.
  - rewrite search_result_rows. split.
    + intros H. right. exists r. split; [reflexivity |].
      destruct (first_row (documents r)) as [docs|] eqn:Hd.
      * destruct (first_row (metadatas r)) as [metas|] eqn:Hm.
        -- destruct (first_row (distances r)) as [dists|] eqn:Hs; [discriminate |].
           injection H as <-. apply first_row_none in Hs. auto.
        -- injection H as <-. apply first_row_none in Hm. auto.
      * injection H as <-. apply first_row_none in Hd. auto.
    + intros [H | (r' & [= <-] & -> & H)]; [discriminate |].
      destruct H as [H | [H | H]]; apply first_row_none in H; rewrite H.
      * reflexivity.
      * destruct (first_row (documents r)); reflexivity.
      * destruct (first_row (documents r)), (first_row (metadatas r)); reflexivity.
  - split.
    + intros [= ->]. left. reflexivity.
    + intros [[= ->] | (r & H & _)]; [reflexivity | discriminate].
Qed.

Lemma returned_fragment_record {distance : Type}
    (recs : list Document) (call : QueryCall)
    (r : QueryResult distance) (res : MemorySearchResult distance)
    (f : MemoryFragment) :
  respects_filter recs call r ->
  search_result r = Returned res ->
  f ∈ fragments res ->
  exists c m, f = rebuild c m /\
              Documents.Build_Document c m ∈ recs /\
              matches (where_ call) m = true.
Proof.
  intros Hresp. rewrite search_result_rows.
  unfold respects_filter, returned_records in Hresp.
  destruct (first_row (documents r)) as [docs|]; [| discriminate].
  destruct (first_row (metadatas r)) as [metas|]; [| discriminate].
  destruct (first_row (distances r)) as [dists|]; [| discriminate].
  intros [= <-] Hf. simpl in *.
  apply elem_of_lookup_zip_with in Hf as (i & c & m & -> & Hc & Hm).
  destruct (Hresp (Documents.Build_Document c m)) as [Hin Hmatch].
  { apply elem_of_lookup_zip_with. exists i, c, m. auto. }
  exists c, m. auto.
Qed.


Lemma bound_conditions_submitted (owner : string) (tf : TimestampFilter)
    (ns : option string) :
  (forall g, greater_than_value tf = Some g -> g <> 0 ->
     Condition "timestamp" op_gt (VInt g) ∈ conditions (search_where owner (Some tf) ns)) /\
  (forall l, lower_than_value tf = Some l -> l <> 0 ->
     Condition "timestamp" op_lt (VInt l) ∈ conditions (search_where owner (Some tf) ns)).
Proof.
  unfold search_where; simpl. split.
  - intros g Hg Hne. rewrite !elem_of_append_bound. left. right. eauto.
  - intros l Hl Hne. rewrite !elem_of_append_bound. right. eauto.
Qed.

Lemma satisfies_gt (meta : gmap string value) (field : string) (b : Z) :
  satisfies meta (Condition field op_gt (VInt b)) = true ->
  exists z, meta !! field = Some (VInt z) /\ b < z.
Proof.
  unfold satisfies; simpl. destruct (meta !! field) as [[|z|]|]; try discriminate.
  intros H. exists z. split; [reflexivity |]. apply Z.ltb_lt. exact H.
Qed.

Lemma satisfies_lt (meta : gmap string value) (field : string) (b : Z) :
  satisfies meta (Condition field op_lt (VInt b)) = true ->
  exists z, meta !! field = Some (VInt z) /\ z < b.
Proof.
  unfold satisfies; simpl. destruct (meta !! field) as [[|z|]|]; try discriminate.
  intros H. exists z. split; [reflexivity |]. apply Z.ltb_lt. exact H.
Qed.

Section Scoping.
Context {distance : Type}.
Variable query : list Document -> QueryCall -> outcome (QueryResult distance).
Variables (self : LongTermMemory) (db : VectorStoreManager).
Variables (query_text owner : string) (limit : Z).
Variables (timestamp_filter : option TimestampFilter) (ns : option string).

Local Abbreviation the_call :=
  (search_call query_text owner limit timestamp_filter ns).


(** X5: under the same hypothesis on the engine, every fragment [search]
    returns has an integer timestamp strictly above a lower bound that is
    neither [None] nor [0], and strictly below such an upper bound. *)
Theorem search_timestamp_window (tf : TimestampFilter) (r : QueryResult distance)
    (res : MemorySearchResult distance) :
  timestamp_filter = Some tf ->
  query (records db (vector_store self)) the_call = Returned r ->
  respects_filter (records db (vector_store self)) the_call r ->
  search query self db query_text owner limit timestamp_filter ns = Returned res ->
  forall f, f ∈ fragments res ->
    (forall g, greater_than_value tf = Some g -> g <> 0 ->
       exists z, ShortMemory.timestamp f = VInt z /\ g < z) /\
    (forall l, lower_than_value tf = Some l -> l <> 0 ->
       exists z, ShortMemory.timestamp f = VInt z /\ z < l).
Proof.
  intros Htf Hr Hresp. rewrite (search_response _ _ _ _ _ _ _ _ _ Hr).
  intros Hres f Hf.
  destruct (returned_fragment_record _ _ _ _ _ Hresp Hres Hf)
    as (c & m & -> & _ & Hmatch).
  simpl in Hmatch. rewrite Htf in Hmatch.
  destruct (bound_conditions_submitted owner tf ns) as [Hgt Hlt].
  split.
  - intros g Hg Hne.
    destruct (satisfies_gt _ _ _ (matches_condition _ _ _ Hmatch (Hgt g Hg Hne)))
      as (z & Hz & Hlt').
    exists z. split; [| exact Hlt'].
    unfold rebuild, dict_get; simpl. rewrite Hz. reflexivity.
  - intros l Hl Hne.
    destruct (satisfies_lt _ _ _ (matches_condition _ _ _ Hmatch (Hlt l Hl Hne)))
      as (z & Hz & Hlt').
    exists z. split; [| exact Hlt'].
    unfold rebuild, dict_get; simpl. rewrite Hz. reflexivity.
Qed.

(** X6: a filter whose two bounds are each [None] or [0] restricts
    nothing: the engine gets the same query, and [search] gives the same
    outcome, as without a filter.  So [lower_than_value=0] does not ask
    for timestamps below [0]. *)
Theorem search_falsy_bounds_unfiltered (tf : TimestampFilter) :
  falsy_bound (greater_than_value tf) ->
  falsy_bound (lower_than_value tf) ->
  search_call query_text owner limit (Some tf) ns
    = search_call query_text owner limit None ns /\
  search query self db query_text owner limit (Some tf) ns
    = search query self db query_text owner limit None ns.
Proof.
  intros Hg Hl.
  assert (Hcall : search_call query_text owner limit (Some tf) ns
                  = search_call query_text owner limit None ns).
  { unfold search_call, search_where. do 2 f_equal.
    destruct Hg as [-> | ->], Hl as [-> | ->]; reflexivity. }
  split; [exact Hcall |]. unfold search. rewrite Hcall. reflexivity.
Qed.

(** X7: when each of the three keys of the response is absent or bound
    to a non-empty outer list, [search] returns also when the document
    row and the metadata row differ in length: it pairs them position by
    position and stops at the shorter row.  The contents of the fragments
    are the leading documents, as many as there are metadata, and the
    owners are those of the leading metadata, as many as there are
    documents. *)
Theorem search_truncates_to_shorter_row (r : QueryResult distance)
    (docs : list string) (metas : list (gmap string value))
    (dists : list distance) :
  query (records db (vector_store self)) the_call = Returned r ->
  first_row (documents r) = Some docs ->
  first_row (metadatas r) = Some metas ->
  first_row (distances r) = Some dists ->
  exists res,
    search query self db query_text owner limit timestamp_filter ns = Returned res /\
    length (fragments res) = Nat.min (length docs) (length metas) /\
    ShortMemory.content <$> fragments res = take (length metas) docs /\
    ShortMemory.owner <$> fragments res
      = (fun m => default VNone (m !! "owner")) <$> take (length docs) metas /\
    result_metadata res = {[ "distances" := dists ]}.
Proof.
  intros Hr Hd Hm Hs.
  rewrite (search_response _ _ _ _ _ _ _ _ _ Hr), search_result_rows.
  rewrite Hd, Hm, Hs. eexists. split; [reflexivity |]. simpl.
  split; [apply length_zip_with |].
  assert (H : ShortMemory.content <$> zip_with rebuild docs metas
                = take (length metas) docs /\
              ShortMemory.owner <$> zip_with rebuild docs metas
                = (fun m => default VNone (m !! "owner")) <$> take (length docs) metas).
  { clear. revert metas. induction docs as [|c docs' IH]; intros [|m metas']; simpl;
      try (split; reflexivity).
    destruct (IH metas') as [IH1 IH2]. split; f_equal; assumption. }
  destruct H as [H1 H2]. repeat split; assumption.
Qed.

End Scoping.

(** ** Further properties of get_namespaces *)

Lemma registered_namespace_value (call : MemoryFragment * option (gmap string value)) :
  record_namespace (register_document call.1 call.2) = Some (stored_namespace call).
Proof.
  destruct call as [mf extra]. unfold record_namespace, stored_namespace; simpl.
  rewrite complete_metadata_lookup.
  destruct (extra ≫= _); reflexivity.
Qed.

Lemma comprehension_cons {A B : Type} (body : A -> outcome B) (x : A) (l : list A) :
  comprehension body (x :: l) =
  match body x with
  | Returned y =>
      match comprehension body l with
      | Returned ys => Returned (y :: ys)
      | Raised e => Raised e
      end
  | Raised e => Raised e
  end.
Proof. reflexivity. Qed.

Lemma comprehension_raises {A B : Type} (body : A -> outcome B) (l : list A) (e : exn) :
  comprehension body l = Raised e <->
  exists before x after,
    l = before ++ x :: after /\
    Forall (fun y => exists b, body y = Returned b) before /\
    body x = Raised e.
Proof.
  induction l as [|x l IH].
  - simpl. split; [discriminate |].
    intros (before & y & after & H & _). destruct before; discriminate.
  - rewrite comprehension_cons. destruct (body x) as [b|e'] eqn:Hx.
    + destruct (comprehension body l) as [bs|e''] eqn:Hl.
      * split; [discriminate |].
        intros ([|z before] & y & after & Heq & Hbefore & Hy);
          injection Heq as -> ->.
        -- congruence.
        -- apply Forall_cons in Hbefore as [_ Hbefore].
           assert (Returned bs = Raised e) as Habs; [| discriminate].
           apply IH. eauto 6.
      * split.
        -- intros [= ->]. destruct (proj1 IH eq_refl)
             as (before & y & after & -> & Hbefore & Hy).
           exists (x :: before), y, after. split; [reflexivity |].
           split; [| exact Hy]. apply Forall_cons. eauto.
        -- intros ([|z before] & y & after & Heq & Hbefore & Hy);
             injection Heq as -> ->.
           ++ congruence.
           ++ apply Forall_cons in Hbefore as [_ Hbefore].
              apply IH. eauto 6.
    + split.
      * intros [= ->]. exists [], x, l. split; [reflexivity |].
        split; [constructor | exact Hx].
      * intros ([|z before] & y & after & Heq & Hbefore & Hy);
          injection Heq as -> ->.
        -- congruence.
        -- apply Forall_cons in Hbefore as [[b Hb] _]. congruence.
Qed.

Lemma namespace_entry_returned (r : GetRecord) (v : value) :
  namespace_entry r = Returned v <->
  exists m rest, record_metadatas r = m :: rest /\ m !! "namespace" = Some v.
Proof.
  unfold namespace_entry, getitem. destruct (record_metadatas r) as [|m rest]; simpl.
  - split; [discriminate |]. intros (m & rest & H & _). discriminate.
  - destruct (m !! "namespace") as [w|] eqn:Hm; simpl.
    + split.
      * intros [= ->]. eauto.
      * intros (m' & rest' & [= <- <-] & H). congruence.
    + split; [discriminate |].
      intros (m' & rest' & [= <- <-] & H). congruence.
Qed.

Lemma namespace_entry_raised (r : GetRecord) (e : exn) :
  namespace_entry r = Raised e <->
  (record_metadatas r = [] /\ e = IndexError) \/
  (exists m rest, record_metadatas r = m :: rest /\
                  m !! "namespace" = None /\ e = KeyError).
Proof.
  unfold namespace_entry, getitem. destruct (record_metadatas r) as [|m rest]; simpl.
  - split.
    + intros [= <-]. auto.
    + intros [[_ ->] | (m & rest & H & _)]; [reflexivity | discriminate].
  - destruct (m !! "namespace") as [w|] eqn:Hm; simpl.
    + split; [discriminate |].
      intros [[H _] | (m' & rest' & [= <- <-] & H & _)]; [discriminate | congruence].
    + split.
      * intros [= <-]. right. eauto.
      * intros [[H _] | (m' & rest' & _ & _ & ->)]; [discriminate | reflexivity].
Qed.

(** X8: [get_namespaces] is the comprehension over what
    [vector_store.get()] gives, and it raises in these cases only: [get]
    itself raises, and the exception passes through; or [get] returns and,
    at the first record in order that has no metadata mapping or whose
    first mapping has no "namespace" key, the comprehension raises
    [IndexError] in the first case and [KeyError] in the second.  One such
    record loses the namespaces of all the others. *)
Theorem get_namespaces_raises_iff (engine_get : outcome (list GetRecord)) (e : exn) :
  (forall self db,
     get_namespaces self db = get_namespaces_from (Returned (get db (vector_store self)))) /\
  (get_namespaces_from engine_get = Raised e <->
   engine_get = Raised e \/
   exists before r after,
     engine_get = Returned (before ++ r :: after) /\
     Forall (fun x => exists m rest v,
               record_metadatas x = m :: rest /\ m !! "namespace" = Some v) before /\
     ((record_metadatas r = [] /\ e = IndexError) \/
      (exists m rest, record_metadatas r = m :: rest /\
                      m !! "namespace" = None /\ e = KeyError))).
Proof.
  split; [reflexivity |].
  unfold get_namespaces_from. destruct engine_get as [results|e']; simpl.
  - rewrite comprehension_raises. split.
    + intros (before & r & after & -> & Hbefore & Hr). right.
      exists before, r, after. split; [reflexivity |]. split.
      * eapply Forall_impl; [exact Hbefore |]. intros x [v Hv]. simpl in Hv.
        apply namespace_entry_returned in Hv as (m & rest & H1 & H2). eauto.
      * apply namespace_entry_raised. exact Hr.
    + intros [H | (before & r & after & [= ->] & Hbefore & Hr)]; [discriminate |].
      exists before, r, after. split; [reflexivity |]. split.
      * eapply Forall_impl; [exact Hbefore |]. intros x (m & rest & v & H1 & H2).
        exists v. apply namespace_entry_returned. eauto.
      * apply namespace_entry_raised. exact Hr.
  - split.
    + intros [= ->]. left. reflexivity.
    + intros [[= ->] | (before & r & after & H & _)]; [reflexivity | discriminate].
Qed.

(** X9: after any history of [register] calls on a new store,
    [get_namespaces] returns one entry per call, in the order of the
    calls: the "namespace" entry of the extra metadata when the call gave
    one, the namespace of the fragment otherwise. *)
Theorem get_namespaces_after_register (db0 : VectorStoreManager)
    (calls : list (MemoryFragment * option (gmap string value))) :
  get_namespaces (__init__ db0).2
    (register_all (__init__ db0).2 (__init__ db0).1 calls)
  = Returned (stored_namespace <$> calls).
Proof.
  rewrite get_namespaces_records.
  - rewrite records_register_all, records_init. simpl. f_equal.
    rewrite <- list_fmap_compose. apply list_fmap_ext. intros i call _. simpl.
    rewrite registered_namespace_value. reflexivity.
  - rewrite records_register_all, records_init. simpl.
    apply Forall_fmap, Forall_forall. intros call _. apply registered_namespace.
Qed.

(** ** register and search together *)

Lemma rebuild_stored (call : MemoryFragment * option (gmap string value)) :
  rebuild (Documents.content (register_document call.1 call.2))
          (Documents.metadata (register_document call.1 call.2))
  = stored_fragment call.
Proof.
  destruct call as [mf extra].
  unfold rebuild, stored_fragment, stored_namespace, dict_get, dict_get_default,
    register_document; simpl.
  rewrite !complete_metadata_lookup.
  f_equal; destruct (extra ≫= _); reflexivity.
Qed.

(** X10: when the engine answers with the records of some [register]
    calls, [search] returns for each of them, in the order of the
    response, the content of the registered fragment with the owner,
    namespace and timestamp that were stored: the caller's extra entry for
    that key when there is one, the field of the fragment otherwise.  The
    other extra keys do not appear in the result. *)
Theorem search_returns_stored_fields {distance : Type}
    (query : list Document -> QueryCall -> outcome (QueryResult distance))
    (self : LongTermMemory) (db : VectorStoreManager)
    (query_text owner : string) (limit : Z)
    (timestamp_filter : option TimestampFilter) (namespace : option string)
    (calls : list (MemoryFragment * option (gmap string value)))
    (dists : list distance) (r : QueryResult distance) :
  let docs := (fun call => register_document call.1 call.2) <$> calls in
  query (records db (vector_store self))
    (search_call query_text owner limit timestamp_filter namespace) = Returned r ->
  documents r = Some [Documents.content <$> docs] ->
  metadatas r = Some [Documents.metadata <$> docs] ->
  distances r = Some [dists] ->
  search query self db query_text owner limit timestamp_filter namespace
    = Returned {| fragments := stored_fragment <$> calls;
                  result_metadata := {[ "distances" := dists ]} |}.
Proof.
  intros docs Hr Hd Hm Hs.
  rewrite (search_response _ _ _ _ _ _ _ _ _ Hr), search_result_rows.
  rewrite Hd, Hm, Hs; simpl. do 2 f_equal.
  unfold docs. clear.
  induction calls as [|call calls' IH]; simpl; [reflexivity |].
  f_equal; [| exact IH]. apply rebuild_stored.
Qed.


(** ** Instances of the further properties *)


(** Between 150 and 250. *)
Lemma search_timestamp_window_witness :
  let tf := {| greater_than_value := Some 150; lower_than_value := Some 250 |} in
  exists res,
    search filtering_engine (__init__ ∅).2 three_notes "note" "alice" 3 (Some tf)
      (Some "default") = Returned res /\
    forall f, f ∈ fragments res ->
      (exists z, ShortMemory.timestamp f = VInt z /\ 150 < z) /\
      (exists z, ShortMemory.timestamp f = VInt z /\ z < 250).
Proof.
  intros tf. eexists. split; [vm_compute; reflexivity |].
  intros f Hf.
  destruct (search_timestamp_window filtering_engine (__init__ ∅).2 three_notes
              "note" "alice" 3 (Some tf) (Some "default") tf _ _
              eq_refl eq_refl (filtering_engine_respects _ _ _ eq_refl) eq_refl
              f Hf) as [Hgt Hlt].
  split.
  - apply (Hgt 150 eq_refl). discriminate.
  - apply (Hlt 250 eq_refl). discriminate.
Defined.

(** Both bounds [0]. *)
Lemma search_falsy_bounds_unfiltered_witness :
  let tf := {| greater_than_value := Some 0; lower_than_value := Some 0 |} in
  search_call "note" "alice" 3 (Some tf) (Some "default")
    = search_call "note" "alice" 3 None (Some "default") /\
  search filtering_engine (__init__ ∅).2 three_notes "note" "alice" 3 (Some tf)
    (Some "default")
  = search filtering_engine (__init__ ∅).2 three_notes "note" "alice" 3 None
    (Some "default").
Proof.
  intros tf.
  apply (search_falsy_bounds_unfiltered filtering_engine (__init__ ∅).2 three_notes
           "note" "alice" 3 (Some "default") tf);
    right; reflexivity.
Defined.

(** Two documents, one metadata mapping: one fragment. *)
Lemma search_truncates_to_shorter_row_witness :
  exists res,
    search (constant_engine uneven_rows) example_store ∅ "chess" "alice" 3 None
      (Some "default") = Returned res /\
    length (fragments res) = 1%nat /\
    ShortMemory.content <$> fragments res = ["likes chess"] /\
    ShortMemory.owner <$> fragments res = [VStr "alice"] /\
    result_metadata res = {[ "distances" := [1; 2] ]}.
Proof.
  apply (search_truncates_to_shorter_row (constant_engine uneven_rows)
           example_store ∅ "chess" "alice" 3 None (Some "default") uneven_rows
           ["likes chess"; "plays on sundays"] [alice_metadata] [1; 2]
           eq_refl eq_refl eq_refl eq_refl).
Defined.

(** Bob's note registered with Alice as the owner of the record, next to
    Alice's own note with a topic. *)
Lemma search_returns_stored_fields_witness :
  let calls := [(bob_note, Some {[ "owner" := VStr "alice" ]});
                (alice_note, Some {[ "topic" := VStr "games" ]})] in
  let docs := (fun call => register_document call.1 call.2) <$> calls in
  let r := {| documents := Some [Documents.content <$> docs];
              metadatas := Some [Documents.metadata <$> docs];
              distances := Some [[1; 2]] |} in
  search (constant_engine r) example_store ∅ "chess" "alice" 3 None (Some "default")
    = Returned {| fragments :=
                    [ {| ShortMemory.content := "plays go";
                         owner := VStr "alice";
                         namespace := VStr "default";
                         timestamp := VInt 2000 |};
                      alice_note ];
                  result_metadata := {[ "distances" := [1; 2] ]} |}.
Proof.
  intros calls docs r.
  apply (search_returns_stored_fields (constant_engine r) example_store ∅
           "chess" "alice" 3 None (Some "default") calls [1; 2] r);
    reflexivity.
Defined.

